(** * PLDM platform monitoring and control: Manager and SensorManager

    A shallow embedding of [platform-mc/manager.hpp] and
    [platform-mc/sensor_manager.hpp], together with the properties of the
    orchestration layer that are stated about them.

    Conventions.
    - Fixed-width unsigned integers ([uint8_t], [uint16_t], [size_t], the
      [int] completion codes) are values of [Z]; where the source performs
      arithmetic on them the wrap-around is written out.
    - A [std::map<K, V>] is a [gmap Z V]; [contains], [operator[]] and
      assignment through [operator[]] are modelled in [StdMap].
    - Member functions that mutate [*this] are state transformers; the
      ones of [Manager] live in a small state monad over [World], the
      object graph rooted at the [Manager] instance. *)

From Stdlib Require Import ZArith List Lia.
From stdpp Require Import base option list gmap.

Local Open Scope Z_scope.

(** ** Scalar types of [common/types.hpp] and libpldm *)

(** [pldm_tid_t] is a [uint8_t]. *)
Abbreviation pldm_tid_t := Z (only parsing).
(** [using Availability = bool]. *)
Abbreviation Availability := bool (only parsing).
(** [SensorID] is a [uint16_t]. *)
Abbreviation SensorID := Z (only parsing).

(** ** [std::map] operations used by the source *)

Module StdMap.
Section ops.
Context {V : Type}.

(** [m.contains(k)] *)
Definition contains (m : gmap Z V) (k : Z) : bool :=
  match m !! k with Some _ => true | None => false end.

(** [m[k]] used as an rvalue: an absent key is first inserted with the
    value-initialised element [dflt], then the element is returned. *)
Definition index (dflt : V) (m : gmap Z V) (k : Z) : V * gmap Z V :=
  match m !! k with
  | Some v => (v, m)
  | None => (dflt, <[k := dflt]> m)
  end.

(** [m[k] = v] *)
Definition assign (m : gmap Z V) (k : Z) (v : V) : gmap Z V :=
  <[k := v]> m.
End ops.
End StdMap.

(** ** Sensors and termini

    [terminus.hpp] is not part of the sources at hand; the two records
    below carry what the orchestration layer needs of them. *)

(** Modelled from the spec: the sensor class is missing.  A sensor is
    "identified within the terminus by a SensorID" and "holds last-known
    reading and a mark unavailable/NaN operation"; [None] is the NaN
    marker. *)
Record Sensor : Type := mkSensor {
  sensorId : SensorID;
  reading : option Z
}.

(** Modelled from the spec: the sensor's [markUnavailable()] capability is
    missing; it replaces the reading by the NaN marker. *)
Definition markUnavailable (s : Sensor) : Sensor :=
  {| sensorId := sensorId s; reading := None |}.

(** Modelled from the spec: the terminus class is missing.  A terminus has
    a "TID" (its key in the registry) and a "collection of owned Sensor
    entities". *)
Record Terminus : Type := mkTerminus {
  numericSensors : list Sensor
}.

(** [TerminiMapper]: the registry, keyed by TID. *)
Abbreviation TerminiMapper := (gmap Z Terminus) (only parsing).

(** ** SensorManager *)

Module SensorManager.

(** Modelled from the spec: [sdbusplus::Timer] is missing.  "Per-TID
    recurring timer; existence of the timer for a TID is equivalent to
    polling is armed for this TID"; the timer recurs "at the configured
    polling interval". *)
Record Timer : Type := mkTimer {
  interval : Z
}.

(** Modelled from the spec: [exec::async_scope] is missing.  The scope owns
    the tasks spawned into it; [live] counts the spawned tasks that have
    not finished yet, [stopRequested] is the cooperative cancellation
    request. *)
Record async_scope : Type := mkScope {
  live : nat;
  stopRequested : bool
}.

(** The data members of [class SensorManager].  The references [event],
    [terminusManager], [termini] and the back pointer [manager] point into
    the enclosing [Manager]; they are fields of [World] below. *)
Record t : Type := mk {
  pollingTime : Z;
  sensorPollTimers : gmap Z Timer;
  doSensorPollingTaskHandles : gmap Z (async_scope * option Z);
  availableState : gmap Z Availability;
  roundRobinSensorItMap : gmap Z SensorID
}.

Definition set_availableState (f : gmap Z Availability -> gmap Z Availability)
    (sm : t) : t :=
  {| pollingTime := pollingTime sm;
     sensorPollTimers := sensorPollTimers sm;
     doSensorPollingTaskHandles := doSensorPollingTaskHandles sm;
     availableState := f (availableState sm);
     roundRobinSensorItMap := roundRobinSensorItMap sm |}.

Definition set_sensorPollTimers (f : gmap Z Timer -> gmap Z Timer)
    (sm : t) : t :=
  {| pollingTime := pollingTime sm;
     sensorPollTimers := f (sensorPollTimers sm);
     doSensorPollingTaskHandles := doSensorPollingTaskHandles sm;
     availableState := availableState sm;
     roundRobinSensorItMap := roundRobinSensorItMap sm |}.

Definition set_doSensorPollingTaskHandles
    (f : gmap Z (async_scope * option Z) -> gmap Z (async_scope * option Z))
    (sm : t) : t :=
  {| pollingTime := pollingTime sm;
     sensorPollTimers := sensorPollTimers sm;
     doSensorPollingTaskHandles := f (doSensorPollingTaskHandles sm);
     availableState := availableState sm;
     roundRobinSensorItMap := roundRobinSensorItMap sm |}.

(** [void updateAvailableState(pldm_tid_t tid, Availability state)]:
    [availableState[tid] = state;] *)
Definition updateAvailableState (tid : pldm_tid_t) (state : Availability)
    (sm : t) : t :=
  set_availableState (fun m => StdMap.assign m tid state) sm.

(** [bool getAvailableState(pldm_tid_t tid)].  The member function is not
    [const]: the second component is the object after the call, so that the
    insertion [operator[]] could perform is visible. *)
Definition getAvailableState (tid : pldm_tid_t) (sm : t) : bool * t :=
  if negb (StdMap.contains (availableState sm) tid) then (false, sm)
  else
    let '(v, m') := StdMap.index false (availableState sm) tid in
    (v, set_availableState (fun _ => m') sm).

(** Modelled from the spec: the body of [startSensorPollTimer] is missing
    ([sensor_manager.cpp]).  "Arms a recurring timer at the configured
    polling interval for tid if not already armed; idempotent." *)
Definition startSensorPollTimer (tid : pldm_tid_t) (sm : t) : t :=
  if StdMap.contains (sensorPollTimers sm) tid then sm
  else
    set_sensorPollTimers
      (fun m => StdMap.assign m tid (mkTimer (pollingTime sm))) sm.

(** Modelled from the spec: the body of [disableTerminusSensors] is missing
    ([sensor_manager.cpp]).  "Marks every sensor of tid unavailable/NaN."
    The sensors live in the registry the engine holds by reference, so the
    function transforms the registry; no data member of the engine is
    named by the spec's description and none is changed. *)
Definition disableTerminusSensors (tid : pldm_tid_t) (termini : TerminiMapper)
    : TerminiMapper :=
  alter (fun tm => mkTerminus (markUnavailable <$> numericSensors tm))
        tid termini.

(** Modelled from the spec: the body of [startPolling] is missing
    ([sensor_manager.cpp]).  "If a task handle already exists and is marked
    running for tid, this is a no-op.  Otherwise launches the polling task
    and records its handle as running."  A handle is running while its
    completion code is [None]. *)
Definition startPolling (tid : pldm_tid_t) (sm : t) : t :=
  match doSensorPollingTaskHandles sm !! tid with
  | Some (_, None) => sm
  | Some (scope, Some _) =>
      set_doSensorPollingTaskHandles
        (fun m => StdMap.assign m tid (mkScope (S (live scope)) false, None))
        sm
  | None =>
      set_doSensorPollingTaskHandles
        (fun m => StdMap.assign m tid (mkScope 1 false, None)) sm
  end.

(** Modelled from the spec: the body of [doSensorPollingTask] is missing
    ([sensor_manager.cpp]).  This is its last step only: "the task then
    completes, clearing the running marker so the next timer tick can
    relaunch it"; [rc] is the completion code of the task. *)
Definition taskCompleted (tid : pldm_tid_t) (rc : Z) (sm : t) : t :=
  match doSensorPollingTaskHandles sm !! tid with
  | Some (scope, None) =>
      set_doSensorPollingTaskHandles
        (fun m =>
           StdMap.assign m tid
             (mkScope (Nat.pred (live scope)) (stopRequested scope), Some rc))
        sm
  | _ => sm
  end.

(** Modelled from the spec: the body of [stopPolling] is missing
    ([sensor_manager.cpp]).  "Cancels the running task for tid if any
    (cooperative: the task observes the cancellation at its next
    availability check or completes naturally) and disarms/removes the
    timer."  The task stays live until it completes. *)
Definition stopPolling (tid : pldm_tid_t) (sm : t) : t :=
  set_sensorPollTimers (delete tid)
    (set_doSensorPollingTaskHandles
       (alter (fun h => match h with
                        | (scope, None) => (mkScope (live scope) true, None)
                        | _ => h
                        end) tid)
       sm).

(** Number of live polling tasks of [tid]: the tasks not yet finished in
    the scope of its handle. *)
Definition liveTasks (tid : pldm_tid_t) (sm : t) : nat :=
  match doSensorPollingTaskHandles sm !! tid with
  | Some (scope, _) => live scope
  | None => 0%nat
  end.

(** A handle is consistent when a running handle has exactly its one task
    live in its scope and a finished handle has none. *)
Definition handle_ok (h : async_scope * option Z) : Prop :=
  match h with
  | (scope, None) => live scope = 1%nat
  | (scope, Some _) => live scope = 0%nat
  end.

Definition handles_ok (sm : t) : Prop :=
  map_Forall (fun _ h => handle_ok h) (doSensorPollingTaskHandles sm).

(** The operations that act on the task handles and timers, and the
    engine state after a sequence of them. *)
Inductive op : Type :=
| OpStartPolling (tid : pldm_tid_t)
| OpStopPolling (tid : pldm_tid_t)
| OpStartSensorPollTimer (tid : pldm_tid_t)
| OpUpdateAvailableState (tid : pldm_tid_t) (state : Availability)
| OpTaskCompleted (tid : pldm_tid_t) (rc : Z).

Definition step (sm : t) (o : op) : t :=
  match o with
  | OpStartPolling tid => startPolling tid sm
  | OpStopPolling tid => stopPolling tid sm
  | OpStartSensorPollTimer tid => startSensorPollTimer tid sm
  | OpUpdateAvailableState tid state => updateAvailableState tid state sm
  | OpTaskCompleted tid rc => taskCompleted tid rc sm
  end.

Definition run (ops : list op) (sm : t) : t := foldl step sm ops.

(** Modelled from the spec: the constructor's body is missing
    ([sensor_manager.cpp]).  A freshly constructed engine has no timer, no
    task handle, no availability entry and no cursor, and polls "at the
    configured polling interval". *)
Definition init (pollingTime : Z) : t :=
  {| pollingTime := pollingTime;
     sensorPollTimers := ∅;
     doSensorPollingTaskHandles := ∅;
     availableState := ∅;
     roundRobinSensorItMap := ∅ |}.

End SensorManager.

(** ** EventManager *)

Module EventManager.

(** Modelled from the spec: [event_manager.hpp] is missing.  Availability
    is "boolean-valued state keyed by TID, independent storage in the
    Sensor Polling Engine and the Event Dispatch Engine". *)
Record t : Type := mk {
  availableState : gmap Z Availability
}.

(** Modelled from the spec: [EventManager::updateAvailableState] is
    missing; "simple keyed write of this engine's own availability
    copy". *)
Definition updateAvailableState (tid : pldm_tid_t) (state : Availability)
    (em : t) : t :=
  {| availableState := StdMap.assign (availableState em) tid state |}.

End EventManager.

(** ** What [Manager] takes from libpldm, the ABI and its collaborators *)

(** Constants of libpldm's [base.h] and [platform.h] the source names.
    Their numeric values are not fixed here. *)
Class Libpldm : Type := {
  PLDM_SUCCESS : Z;
  PLDM_PLATFORM_EVENT_ID_NULL : Z;
  PLDM_SENSOR_EVENT : Z;
  PLDM_MESSAGE_POLL_EVENT : Z;
  PLDM_CPER_EVENT : Z
}.

(** Width of [size_t] on the target. *)
Class Abi : Type := {
  size_t_bits : Z
}.

(** [a - b] on [size_t] operands: unsigned, reduced modulo [2^size_t_bits]. *)
Definition size_sub `{Abi} (a b : Z) : Z := (a - b) mod 2 ^ size_t_bits.

(** [struct pldm_msg] of libpldm: the header is never read by the source,
    [payload] is the trailing byte array. *)
Record pldm_msg : Type := mk_pldm_msg {
  payload : list Z
}.

(** A [const uint8_t*] into the payload of a message: the array it points
    into and the element offset from its first byte. *)
Record byte_ptr : Type := mk_byte_ptr {
  pointee : list Z;
  offset : Z
}.

(** [request->payload] decayed to a pointer to its first byte. *)
Definition payload_ptr (request : pldm_msg) : byte_ptr :=
  {| pointee := payload request; offset := 0 |}.

(** [p + n] *)
Definition ptr_add (p : byte_ptr) (n : Z) : byte_ptr :=
  {| pointee := pointee p; offset := offset p + n |}.

(** The [n] bytes a reader of [(p, n)] that stays inside the array sees. *)
Definition bytes_at (p : byte_ptr) (n : Z) : list Z :=
  take (Z.to_nat n) (drop (Z.to_nat (offset p)) (pointee p)).

(** Modelled from the spec: [terminus_manager.hpp] and [event_manager.hpp]
    are missing; these are the member functions of [TerminusManager] and
    [EventManager] that [Manager] calls, taken as parameters.  [MctpInfo]
    is the endpoint descriptor of [common/types.hpp], [TM] the state of
    the [TerminusManager] object.  The coordinator "exposes
    toTid(endpointAddress) -> Option<TID> and an availability-change
    notification hook" and is "treated as external": the hook acts on the
    coordinator's own state.  The dispatch "handlePlatformEvent(tid,
    eventId, eventClassTag, data) -> CompletionCode" may change the event
    manager in any way.  That each callee is confined to its own object
    is an assumption taken from the spec, not from the source, which
    hands both objects references into the [Manager]. *)
Class Collaborators (MctpInfo TM : Type) : Type := {
  toTid : TM -> MctpInfo -> option pldm_tid_t;
  tm_updateMctpEndpointAvailability : TM -> MctpInfo -> Availability -> TM;
  handlePlatformEvent :
    EventManager.t -> pldm_tid_t -> Z -> Z -> byte_ptr -> Z ->
    Z * EventManager.t
}.

(** ** Manager *)

Module Manager.
Section manager.
Context {MctpInfo TM : Type} `{Libpldm} `{Abi} `{Collaborators MctpInfo TM}.

(** A call of a member function of one of the sub-objects. *)
Inductive Call : Type :=
| TerminusManager_toTid (mctpInfo : MctpInfo)
| TerminusManager_updateMctpEndpointAvailability
    (mctpInfo : MctpInfo) (availability : Availability)
| SensorManager_startSensorPollTimer (tid : pldm_tid_t)
| SensorManager_disableTerminusSensors (tid : pldm_tid_t)
| SensorManager_updateAvailableState
    (tid : pldm_tid_t) (state : Availability)
| EventManager_updateAvailableState
    (tid : pldm_tid_t) (state : Availability)
| EventManager_handlePlatformEvent
    (tid : pldm_tid_t) (eventId eventClass : Z)
    (eventData : byte_ptr) (eventDataSize : Z).

(** The data members of [class Manager] ([platformManager] and
    [pollHandlers] are used by none of the member functions embedded
    here), and [calls]: the calls made on the sub-objects so far, oldest
    first.  [calls] is a ghost field: it records the order of the calls
    and is read by no operation. *)
Record World : Type := mkWorld {
  termini : TerminiMapper;
  terminusManager : TM;
  sensorManager : SensorManager.t;
  eventManager : EventManager.t;
  calls : list Call
}.

(** Computations that read and update the object graph. *)
Definition M (A : Type) : Type := World -> A * World.

Definition ret {A : Type} (a : A) : M A := fun w => (a, w).

Definition bind {A B : Type} (c : M A) (k : A -> M B) : M B :=
  fun w => let '(a, w') := c w in k a w'.

(** Appends a call to the ghost log. *)
Definition called (c : Call) : M unit :=
  fun w =>
    (tt, {| termini := termini w;
            terminusManager := terminusManager w;
            sensorManager := sensorManager w;
            eventManager := eventManager w;
            calls := calls w ++ [c] |}).

Notation "'let*' x ':=' c 'in' k" := (bind c (fun x => k))
  (at level 10, x name, c at level 200, k at level 200, only parsing).
Notation "c >> k" := (bind c (fun _ => k))
  (at level 100, k at level 200, right associativity, only parsing).


(** Availability notifications forwarded to the terminus manager. *)
Definition is_forward (c : Call) : bool :=
  match c with
  | TerminusManager_updateMctpEndpointAvailability _ _ => true
  | _ => false
  end.

(** *** Calls on the sub-objects

    Each one logs the call and applies the callee to the part of the
    object graph it owns or holds by reference. *)

(** [terminusManager.toTid(mctpInfo)] *)
Definition terminusManager_toTid (mctpInfo : MctpInfo)
    : M (option pldm_tid_t) :=
  called (TerminusManager_toTid mctpInfo) >>
  fun w => (toTid (terminusManager w) mctpInfo, w).

(** [terminusManager.updateMctpEndpointAvailability(mctpInfo, availability)] *)
Definition terminusManager_updateMctpEndpointAvailability
    (mctpInfo : MctpInfo) (availability : Availability) : M unit :=
  called (TerminusManager_updateMctpEndpointAvailability mctpInfo
            availability) >>
  fun w =>
    (tt, {| termini := termini w;
            terminusManager :=
              tm_updateMctpEndpointAvailability (terminusManager w)
                mctpInfo availability;
            sensorManager := sensorManager w;
            eventManager := eventManager w;
            calls := calls w |}).

(** [sensorManager.startSensorPollTimer(tid)] *)
Definition sensorManager_startSensorPollTimer (tid : pldm_tid_t) : M unit :=
  called (SensorManager_startSensorPollTimer tid) >>
  fun w =>
    (tt, {| termini := termini w;
            terminusManager := terminusManager w;
            sensorManager :=
              SensorManager.startSensorPollTimer tid (sensorManager w);
            eventManager := eventManager w;
            calls := calls w |}).

(** [sensorManager.disableTerminusSensors(tid)]: the callee reaches the
    sensors through its reference to [termini]. *)
Definition sensorManager_disableTerminusSensors (tid : pldm_tid_t)
    : M unit :=
  called (SensorManager_disableTerminusSensors tid) >>
  fun w =>
    (tt, {| termini := SensorManager.disableTerminusSensors tid (termini w);
            terminusManager := terminusManager w;
            sensorManager := sensorManager w;
            eventManager := eventManager w;
            calls := calls w |}).

(** [sensorManager.updateAvailableState(tid, state)] *)
Definition sensorManager_updateAvailableState (tid : pldm_tid_t)
    (state : Availability) : M unit :=
  called (SensorManager_updateAvailableState tid state) >>
  fun w =>
    (tt, {| termini := termini w;
            terminusManager := terminusManager w;
            sensorManager :=
              SensorManager.updateAvailableState tid state
                (sensorManager w);
            eventManager := eventManager w;
            calls := calls w |}).

(** [eventManager.updateAvailableState(tid, state)] *)
Definition eventManager_updateAvailableState (tid : pldm_tid_t)
    (state : Availability) : M unit :=
  called (EventManager_updateAvailableState tid state) >>
  fun w =>
    (tt, {| termini := termini w;
            terminusManager := terminusManager w;
            sensorManager := sensorManager w;
            eventManager :=
              EventManager.updateAvailableState tid state (eventManager w);
            calls := calls w |}).

(** [eventManager.handlePlatformEvent(tid, eventId, eventClass, eventData,
    eventDataSize)] *)
Definition eventManager_handlePlatformEvent (tid : pldm_tid_t)
    (eventId eventClass : Z) (eventData : byte_ptr) (eventDataSize : Z)
    : M Z :=
  called (EventManager_handlePlatformEvent tid eventId eventClass
            eventData eventDataSize) >>
  fun w =>
    let '(rc, em) :=
      handlePlatformEvent (eventManager w) tid eventId eventClass
        eventData eventDataSize in
    (rc, {| termini := termini w;
            terminusManager := terminusManager w;
            sensorManager := sensorManager w;
            eventManager := em;
            calls := calls w |}).

(** *** Member functions of [Manager] *)

(** [void updateAvailableState(pldm_tid_t tid, Availability state)] *)
Definition updateAvailableState (tid : pldm_tid_t) (state : Availability)
    : M unit :=
  fun w =>
    (if StdMap.contains (termini w) tid then
       sensorManager_updateAvailableState tid state >>
       eventManager_updateAvailableState tid state
     else ret tt) w.

(** [void updateMctpEndpointAvailability(const MctpInfo& mctpInfo,
    Availability availability)] *)
Definition updateMctpEndpointAvailability (mctpInfo : MctpInfo)
    (availability : Availability) : M unit :=
  let* tid := terminusManager_toTid mctpInfo in
  match tid with
  | Some tid_value =>
      (if availability then sensorManager_startSensorPollTimer tid_value
       else sensorManager_disableTerminusSensors tid_value) >>
      updateAvailableState tid_value availability
  | None => ret tt
  end >>
  terminusManager_updateMctpEndpointAvailability mctpInfo availability.

(** [int handleSensorEvent(const pldm_msg* request, size_t payloadLength,
    uint8_t formatVersion, uint8_t tid, size_t eventDataOffset)] *)
Definition handleSensorEvent (request : pldm_msg) (payloadLength : Z)
    (formatVersion : Z) (tid : Z) (eventDataOffset : Z) : M Z :=
  let eventData := ptr_add (payload_ptr request) eventDataOffset in
  let eventDataSize := size_sub payloadLength eventDataOffset in
  eventManager_handlePlatformEvent tid PLDM_PLATFORM_EVENT_ID_NULL
    PLDM_SENSOR_EVENT eventData eventDataSize >>
  ret PLDM_SUCCESS.

(** [int handleCperEvent(const pldm_msg* request, size_t payloadLength,
    uint8_t formatVersion, uint8_t tid, size_t eventDataOffset)] *)
Definition handleCperEvent (request : pldm_msg) (payloadLength : Z)
    (formatVersion : Z) (tid : Z) (eventDataOffset : Z) : M Z :=
  let eventData := ptr_add (payload_ptr request) eventDataOffset in
  let eventDataSize := size_sub payloadLength eventDataOffset in
  eventManager_handlePlatformEvent tid PLDM_PLATFORM_EVENT_ID_NULL
    PLDM_CPER_EVENT eventData eventDataSize >>
  ret PLDM_SUCCESS.

(** [int handlePldmMessagePollEvent(const pldm_msg* request,
    size_t payloadLength, uint8_t formatVersion, uint8_t tid,
    size_t eventDataOffset)] *)
Definition handlePldmMessagePollEvent (request : pldm_msg)
    (payloadLength : Z) (formatVersion : Z) (tid : Z)
    (eventDataOffset : Z) : M Z :=
  let eventData := ptr_add (payload_ptr request) eventDataOffset in
  let eventDataSize := size_sub payloadLength eventDataOffset in
  eventManager_handlePlatformEvent tid PLDM_PLATFORM_EVENT_ID_NULL
    PLDM_MESSAGE_POLL_EVENT eventData eventDataSize >>
  ret PLDM_SUCCESS.

(** [int handlePolledCperEvent(pldm_tid_t tid, uint16_t eventId,
    const uint8_t* eventData, size_t eventDataSize)] *)
Definition handlePolledCperEvent (tid : pldm_tid_t) (eventId : Z)
    (eventData : byte_ptr) (eventDataSize : Z) : M Z :=
  eventManager_handlePlatformEvent tid eventId PLDM_CPER_EVENT eventData
    eventDataSize.

(** The three push-style event handlers, by the event class each one
    tags its dispatch with. *)
Definition push_handlers
    : list (Z * (pldm_msg -> Z -> Z -> Z -> Z -> M Z)) :=
  [ (PLDM_SENSOR_EVENT, handleSensorEvent);
    (PLDM_CPER_EVENT, handleCperEvent);
    (PLDM_MESSAGE_POLL_EVENT, handlePldmMessagePollEvent) ].

End manager.
End Manager.

(** ** Concrete instances, used to run the definitions *)

Module Examples.

(** The values DSP0240 and DSP0248 assign to the constants. *)
Definition dsp0248 : Libpldm :=
  {| PLDM_SUCCESS := 0;
     PLDM_PLATFORM_EVENT_ID_NULL := 0;
     PLDM_SENSOR_EVENT := 0;
     PLDM_MESSAGE_POLL_EVENT := 5;
     PLDM_CPER_EVENT := 7 |}.

Definition lp64 : Abi := {| size_t_bits := 64 |}.

(** A coordinator that resolves endpoint ids through a table and keeps
    the last availability it was told per endpoint, and an event manager
    whose registered handler fails on every event with completion code
    [1] ([PLDM_ERROR]). *)
Definition table : Type := list (Z * pldm_tid_t) * list (Z * Availability).

Definition table_toTid (tm : table) (eid : Z) : option pldm_tid_t :=
  snd <$> find (fun e => Z.eqb (fst e) eid) (fst tm).

Definition failing : Collaborators Z table :=
  {| toTid := table_toTid;
     tm_updateMctpEndpointAvailability :=
       fun tm eid a => (fst tm, (eid, a) :: snd tm);
     handlePlatformEvent := fun em _ _ _ _ _ => (1, em) |}.

Definition request : pldm_msg :=
  {| payload := [1; 2; 3; 4; 5; 6; 7; 8; 9; 10] |}.

(** Endpoint 9 is TID 5, a terminus with two sensors whose polling
    timer is armed; endpoint 8 is TID 6, which the registry does not
    hold. *)
Definition world : @Manager.World Z table :=
  {| Manager.termini :=
       {[ 5 := mkTerminus [mkSensor 1 (Some 42); mkSensor 2 (Some 17)] ]};
     Manager.terminusManager := ([(9, 5); (8, 6)], []);
     Manager.sensorManager :=
       SensorManager.set_sensorPollTimers
         (fun _ => {[ 5 := SensorManager.mkTimer 1000 ]})
         (SensorManager.init 1000);
     Manager.eventManager := {| EventManager.availableState := ∅ |};
     Manager.calls := [] |}.



(** The object graph after endpoint 9 is reported unavailable. *)
Definition endpoint9_unavailable : @Manager.World Z table :=
  (@Manager.updateMctpEndpointAvailability Z table failing 9 false world).2.

End Examples.

(** ** Sequences of availability updates *)

Module Updates.

(** The engine after the calls [updateAvailableState(u.1, u.2)] for the
    entries [u] of [us], first entry first. *)
Definition record_all (us : list (pldm_tid_t * Availability))
    (sm : SensorManager.t) : SensorManager.t :=
  foldl (fun s u => SensorManager.updateAvailableState u.1 u.2 s) sm us.

(** The state of the last entry of [us] for [tid], [acc] when there is
    none. *)
Fixpoint last_update_from (tid : pldm_tid_t) (acc : option Availability)
    (us : list (pldm_tid_t * Availability)) : option Availability :=
  match us with
  | [] => acc
  | u :: us' =>
      last_update_from tid (if Z.eqb u.1 tid then Some u.2 else acc) us'
  end.

Definition last_update (tid : pldm_tid_t)
    (us : list (pldm_tid_t * Availability)) : option Availability :=
  last_update_from tid None us.

End Updates.

(** ** OEM poll handlers of [Manager] *)

Module PollHandlers.
Section handlers.
(** [PollHandler] is a [std::function<exec::task<int>(pldm_tid_t)>]; the
    callables are kept abstract. *)
Context {PollHandler : Type}.

(** [void registerOEMPollMethod(PollHandler handler)]:
    [pollHandlers.push_back(std::move(handler));] on the [std::vector]
    data member [pollHandlers]. *)
Definition registerOEMPollMethod (handler : PollHandler)
    (pollHandlers : list PollHandler) : list PollHandler :=
  pollHandlers ++ [handler].

(** The vector after registering the handlers of [hs], first one first. *)
Definition register_all (hs : list PollHandler)
    (pollHandlers : list PollHandler) : list PollHandler :=
  foldl (fun ph h => registerOEMPollMethod h ph) pollHandlers hs.

End handlers.
End PollHandlers.

(** * Properties *)

(** ** SensorManager *)

Module SensorManagerFacts.
Import SensorManager.

Lemma set_availableState_id (sm : t) :
  set_availableState (fun _ => availableState sm) sm = sm.
Proof. by destruct sm. Qed.

Lemma getAvailableState_state (tid : pldm_tid_t) (sm : t) :
  (getAvailableState tid sm).2 = sm.
Proof.
  unfold getAvailableState, StdMap.contains, StdMap.index.
  destruct (availableState sm !! tid) as [v|] eqn:E; simpl; [|done].
  apply set_availableState_id.
Qed.

Lemma getAvailableState_absent (tid : pldm_tid_t) (sm : t) :
  availableState sm !! tid = None -> getAvailableState tid sm = (false, sm).
Proof.
  intros E. unfold getAvailableState, StdMap.contains. by rewrite E.
Qed.

Lemma updateAvailableState_other (tid tid' : pldm_tid_t) (st : Availability)
    (sm : t) :
  tid' ≠ tid ->
  availableState (updateAvailableState tid' st sm) !! tid
  = availableState sm !! tid.
Proof.
  intros Hne. unfold updateAvailableState, StdMap.assign. simpl.
  by rewrite lookup_insert_ne.
Qed.

Lemma updates_other (tid : pldm_tid_t)
    (us : list (pldm_tid_t * Availability)) :
  Forall (fun u => u.1 ≠ tid) us ->
  forall sm : t,
    availableState
      (foldl (fun s u => updateAvailableState u.1 u.2 s) sm us) !! tid
    = availableState sm !! tid.
Proof.
  induction 1 as [|u us Hu _ IH]; intros sm; simpl; [done|].
  rewrite IH. by apply updateAvailableState_other.
Qed.

(** C9.  A TID the engine holds no availability entry for, and on which
    [updateAvailableState] is not called afterwards (whatever is recorded
    for other TIDs), is reported unavailable by [getAvailableState], and
    the engine after the query is the engine before it: the stored
    availability map is not modified. *)
Theorem getAvailableState_default (tid : pldm_tid_t) (sm0 : t)
    (us : list (pldm_tid_t * Availability)) :
  availableState sm0 !! tid = None ->
  Forall (fun u => u.1 ≠ tid) us ->
  getAvailableState tid
    (foldl (fun s u => updateAvailableState u.1 u.2 s) sm0 us)
  = (false, foldl (fun s u => updateAvailableState u.1 u.2 s) sm0 us).
Proof.
  intros Habs Hus.
  apply getAvailableState_absent. by rewrite updates_other.
Qed.

Lemma getAvailableState_default_witness :
  getAvailableState 5
    (foldl (fun s u => updateAvailableState u.1 u.2 s) (init 1000)
       [(6, true); (7, false); (6, false)])
  = (false,
     foldl (fun s u => updateAvailableState u.1 u.2 s) (init 1000)
       [(6, true); (7, false); (6, false)]).
Proof.
  apply (getAvailableState_default 5 (init 1000)
           [(6, true); (7, false); (6, false)]).
  - reflexivity.
  - repeat constructor; simpl; lia.
Defined.

(** *** Task handles *)

Lemma handles_ok_assign (tid : pldm_tid_t) (h : async_scope * option Z)
    (sm : t) :
  handle_ok h -> handles_ok sm ->
  handles_ok
    (set_doSensorPollingTaskHandles (fun m => StdMap.assign m tid h) sm).
Proof.
  intros Hh Hsm. unfold handles_ok, StdMap.assign. simpl.
  by apply map_Forall_insert_2.
Qed.

Lemma handles_ok_startPolling (tid : pldm_tid_t) (sm : t) :
  handles_ok sm -> handles_ok (startPolling tid sm).
Proof.
  intros Hsm. unfold startPolling.
  destruct (doSensorPollingTaskHandles sm !! tid) as [[scope [rc|]]|] eqn:E;
    [| done |]; apply handles_ok_assign; try done.
  apply Hsm in E. simpl in *. by rewrite E.
Qed.

Lemma handles_ok_taskCompleted (tid : pldm_tid_t) (rc : Z) (sm : t) :
  handles_ok sm -> handles_ok (taskCompleted tid rc sm).
Proof.
  intros Hsm. unfold taskCompleted.
  destruct (doSensorPollingTaskHandles sm !! tid) as [[scope [rc'|]]|] eqn:E;
    try done.
  apply handles_ok_assign; [|done].
  apply Hsm in E. simpl in *. by rewrite E.
Qed.

Lemma handles_ok_stopPolling (tid : pldm_tid_t) (sm : t) :
  handles_ok sm -> handles_ok (stopPolling tid sm).
Proof.
  intros Hsm tid' h. unfold stopPolling. simpl.
  rewrite lookup_alter. case_decide as Heq; [subst tid'|by apply Hsm].
  destruct (doSensorPollingTaskHandles sm !! tid) as [[scope [rc|]]|] eqn:E;
    simpl; intros [= <-]; by apply Hsm in E.
Qed.

Lemma handles_ok_step (o : op) (sm : t) :
  handles_ok sm -> handles_ok (step sm o).
Proof.
  destruct o as [tid|tid|tid|tid st|tid rc]; simpl.
  - apply handles_ok_startPolling.
  - apply handles_ok_stopPolling.
  - unfold startSensorPollTimer.
    by destruct (StdMap.contains (sensorPollTimers sm) tid).
  - done.
  - apply handles_ok_taskCompleted.
Qed.

Lemma handles_ok_run (ops : list op) :
  forall sm : t, handles_ok sm -> handles_ok (run ops sm).
Proof.
  unfold run. induction ops as [|o ops IH]; intros sm Hsm; simpl; [done|].
  by apply IH, handles_ok_step.
Qed.

Lemma handles_ok_init (pt : Z) : handles_ok (init pt).
Proof. unfold handles_ok. simpl. apply map_Forall_empty. Qed.

Lemma liveTasks_bound (tid : pldm_tid_t) (sm : t) :
  handles_ok sm -> (liveTasks tid sm ≤ 1)%nat.
Proof.
  intros Hsm. unfold liveTasks.
  destruct (doSensorPollingTaskHandles sm !! tid) as [[scope [rc|]]|] eqn:E;
    [| |lia]; apply Hsm in E; simpl in E; lia.
Qed.

Lemma startPolling_running (tid : pldm_tid_t) (sm : t) :
  exists scope : async_scope,
    doSensorPollingTaskHandles (startPolling tid sm) !! tid
    = Some (scope, None).
Proof.
  unfold startPolling.
  destruct (doSensorPollingTaskHandles sm !! tid) as [[scope [rc|]]|] eqn:E;
    simpl; unfold StdMap.assign; rewrite ?lookup_insert_eq; eauto.
Qed.

Lemma startPolling_idempotent (tid : pldm_tid_t) (sm : t) :
  startPolling tid (startPolling tid sm) = startPolling tid sm.
Proof.
  destruct (startPolling_running tid sm) as [scope E].
  unfold startPolling at 1. by rewrite E.
Qed.

Lemma startPolling_live (tid : pldm_tid_t) (sm : t) :
  handles_ok sm -> liveTasks tid (startPolling tid sm) = 1%nat.
Proof.
  intros Hsm. apply handles_ok_startPolling with (tid := tid) in Hsm.
  destruct (startPolling_running tid sm) as [scope E].
  unfold liveTasks. rewrite E. by apply Hsm in E.
Qed.

(** C7.  In every state the engine reaches from its construction by
    starting and stopping polling, arming timers, recording availability
    and completing tasks, no TID has more than one live polling task;
    starting polling twice in a row there leaves exactly one live task
    for the TID, and the second start changes nothing. *)
Theorem startPolling_single_task (pt : Z) (ops : list op)
    (tid : pldm_tid_t) :
  (forall tid' : pldm_tid_t, (liveTasks tid' (run ops (init pt)) ≤ 1)%nat)
  /\ liveTasks tid (startPolling tid (startPolling tid (run ops (init pt))))
     = 1%nat
  /\ startPolling tid (startPolling tid (run ops (init pt)))
     = startPolling tid (run ops (init pt)).
Proof.
  pose proof (handles_ok_run ops _ (handles_ok_init pt)) as Hok.
  split; [|split].
  - intros tid'. by apply liveTasks_bound.
  - rewrite startPolling_idempotent. by apply startPolling_live.
  - apply startPolling_idempotent.
Qed.

End SensorManagerFacts.

(** ** Manager *)

Module ManagerFacts.
Import Manager.

(** Unfolds the monadic plumbing of a member function down to the calls
    it makes on the sub-objects. *)
Ltac run_calls :=
  unfold terminusManager_toTid,
         terminusManager_updateMctpEndpointAvailability,
         sensorManager_startSensorPollTimer,
         sensorManager_disableTerminusSensors,
         sensorManager_updateAvailableState,
         eventManager_updateAvailableState,
         eventManager_handlePlatformEvent,
         called, bind, ret;
  simpl.

Section facts.
Context {MctpInfo TM : Type} `{Libpldm} `{Abi} `{Collaborators MctpInfo TM}.

Implicit Types (w : @World MctpInfo TM) (tid : pldm_tid_t).

(** *** Event ingestion *)

(** What a dispatch followed by [return PLDM_SUCCESS] does. *)
Lemma dispatch_then_success tid (eventId eventClass : Z)
    (eventData : byte_ptr) (eventDataSize : Z) w :
  bind (eventManager_handlePlatformEvent tid eventId eventClass eventData
          eventDataSize)
       (fun _ => ret PLDM_SUCCESS) w
  = (PLDM_SUCCESS,
     {| termini := termini w;
        terminusManager := terminusManager w;
        sensorManager := sensorManager w;
        eventManager :=
          (handlePlatformEvent (eventManager w) tid eventId eventClass
             eventData eventDataSize).2;
        calls :=
          calls w ++ [EventManager_handlePlatformEvent tid eventId
                        eventClass eventData eventDataSize] |}).
Proof.
  run_calls.
  by destruct (handlePlatformEvent (eventManager w) tid eventId eventClass
                 eventData eventDataSize).
Qed.

(** Every push-style handler is a dispatch with the null event id, its
    own event class, the payload pointer advanced by the offset and the
    [size_t] difference, followed by [return PLDM_SUCCESS]. *)
Lemma push_handlers_run (request : pldm_msg)
    (payloadLength formatVersion tid eventDataOffset : Z) w :
  Forall
    (fun ch =>
       ch.2 request payloadLength formatVersion tid eventDataOffset w
       = (PLDM_SUCCESS,
          {| termini := termini w;
             terminusManager := terminusManager w;
             sensorManager := sensorManager w;
             eventManager :=
               (handlePlatformEvent (eventManager w) tid
                  PLDM_PLATFORM_EVENT_ID_NULL ch.1
                  (ptr_add (payload_ptr request) eventDataOffset)
                  (size_sub payloadLength eventDataOffset)).2;
             calls :=
               calls w ++ [EventManager_handlePlatformEvent tid
                             PLDM_PLATFORM_EVENT_ID_NULL ch.1
                             (ptr_add (payload_ptr request) eventDataOffset)
                             (size_sub payloadLength eventDataOffset)] |}))
    push_handlers.
Proof.
  unfold push_handlers.
  repeat apply Forall_cons_2; [| | |apply Forall_nil_2]; simpl;
    apply dispatch_then_success.
Qed.

Lemma size_sub_exact (a b : Z) :
  0 <= b <= a -> a < 2 ^ size_t_bits -> size_sub a b = a - b.
Proof. intros Hb Ha. unfold size_sub. apply Z.mod_small. lia. Qed.

Lemma size_sub_wraps (a b : Z) :
  0 <= a < b -> b < 2 ^ size_t_bits ->
  size_sub a b = 2 ^ size_t_bits - (b - a).
Proof.
  intros Ha Hb. unfold size_sub.
  replace (a - b) with (2 ^ size_t_bits - (b - a) + (-1) * 2 ^ size_t_bits)
    by lia.
  rewrite Z.mod_add by lia. apply Z.mod_small. lia.
Qed.


(** C3.  Whatever completion code [rc] the dispatch to the event manager
    produces, each push-style handler returns [PLDM_SUCCESS]: the
    outcome of the registered handler is not reflected in the return
    value. *)
Theorem push_handlers_return_success (request : pldm_msg)
    (payloadLength formatVersion tid eventDataOffset : Z) w :
  Forall
    (fun ch =>
       forall rc : Z,
         (handlePlatformEvent (eventManager w) tid
            PLDM_PLATFORM_EVENT_ID_NULL ch.1
            (ptr_add (payload_ptr request) eventDataOffset)
            (size_sub payloadLength eventDataOffset)).1 = rc ->
         (ch.2 request payloadLength formatVersion tid eventDataOffset
            w).1 = PLDM_SUCCESS)
    push_handlers.
Proof.
  eapply Forall_impl; [apply push_handlers_run|].
  intros ch -> rc _. reflexivity.
Qed.

(** C6.  Each push-style handler forwards to the event manager: it applies
    [handlePlatformEvent] to the caller's [tid], the null event id, the
    event class of the handler, the payload pointer advanced by
    [eventDataOffset] and the [size_t] difference [payloadLength -
    eventDataOffset]; the event manager after the handler is the one this
    dispatch leaves, and the dispatch is the only call the handler makes.
    For an offset within the payload length the size forwarded is exactly
    [payloadLength - eventDataOffset], and when the payload holds
    [payloadLength] bytes the data forwarded is the payload from
    [eventDataOffset] on, [payloadLength - eventDataOffset] bytes of it. *)
Theorem push_handlers_forward (request : pldm_msg)
    (payloadLength formatVersion tid eventDataOffset : Z) w :
  Forall
    (fun ch =>
       eventManager
         (ch.2 request payloadLength formatVersion tid eventDataOffset w).2
       = (handlePlatformEvent (eventManager w) tid
            PLDM_PLATFORM_EVENT_ID_NULL ch.1
            (ptr_add (payload_ptr request) eventDataOffset)
            (size_sub payloadLength eventDataOffset)).2
       /\ calls
            (ch.2 request payloadLength formatVersion tid eventDataOffset
               w).2
          = calls w ++ [EventManager_handlePlatformEvent tid
                          PLDM_PLATFORM_EVENT_ID_NULL ch.1
                          (ptr_add (payload_ptr request) eventDataOffset)
                          (size_sub payloadLength eventDataOffset)])
    push_handlers
  /\ (0 <= eventDataOffset <= payloadLength ->
      payloadLength < 2 ^ size_t_bits ->
      payloadLength <= Z.of_nat (length (payload request)) ->
      Forall
        (fun ch =>
           eventManager
             (ch.2 request payloadLength formatVersion tid eventDataOffset
                w).2
           = (handlePlatformEvent (eventManager w) tid
                PLDM_PLATFORM_EVENT_ID_NULL ch.1
                (ptr_add (payload_ptr request) eventDataOffset)
                (payloadLength - eventDataOffset)).2
           /\ calls
                (ch.2 request payloadLength formatVersion tid
                   eventDataOffset w).2
              = calls w ++ [EventManager_handlePlatformEvent tid
                              PLDM_PLATFORM_EVENT_ID_NULL ch.1
                              (ptr_add (payload_ptr request) eventDataOffset)
                              (payloadLength - eventDataOffset)]
           /\ bytes_at (ptr_add (payload_ptr request) eventDataOffset)
                (payloadLength - eventDataOffset)
              = take (Z.to_nat (payloadLength - eventDataOffset))
                  (drop (Z.to_nat eventDataOffset) (payload request))
           /\ Z.of_nat
                (length
                   (bytes_at (ptr_add (payload_ptr request) eventDataOffset)
                      (payloadLength - eventDataOffset)))
              = payloadLength - eventDataOffset)
        push_handlers).
Proof.
  split.
  - eapply Forall_impl; [apply push_handlers_run|].
    by intros ch ->.
  - intros Hoff Hlen Hpayload.
    eapply Forall_impl; [apply push_handlers_run|].
    intros ch ->. simpl. rewrite size_sub_exact by done.
    split; [done|]. split; [done|].
    unfold bytes_at. simpl. split; [done|].
    rewrite length_take, length_drop. lia.
Qed.

(** C8.  [handlePolledCperEvent] makes exactly one call on the event
    manager, [handlePlatformEvent] with the caller's [tid], [eventId],
    data pointer and size and the CPER event class, and returns the
    completion code of that call. *)
Theorem handlePolledCperEvent_dispatch tid (eventId : Z)
    (eventData : byte_ptr) (eventDataSize : Z) w :
  handlePolledCperEvent tid eventId eventData eventDataSize w
  = ((handlePlatformEvent (eventManager w) tid eventId PLDM_CPER_EVENT
        eventData eventDataSize).1,
     {| termini := termini w;
        terminusManager := terminusManager w;
        sensorManager := sensorManager w;
        eventManager :=
          (handlePlatformEvent (eventManager w) tid eventId
             PLDM_CPER_EVENT eventData eventDataSize).2;
        calls :=
          calls w ++ [EventManager_handlePlatformEvent tid eventId
                        PLDM_CPER_EVENT eventData eventDataSize] |}).
Proof.
  unfold handlePolledCperEvent. run_calls.
  by destruct (handlePlatformEvent (eventManager w) tid eventId
                 PLDM_CPER_EVENT eventData eventDataSize).
Qed.

(** *** Availability *)

(** C4.  For a TID the registry does not hold, [updateAvailableState]
    returns with the whole object graph as it was: neither engine's
    availability changes and no call is made on them. *)
Theorem updateAvailableState_unknown_tid tid (state : Availability) w :
  termini w !! tid = None ->
  updateAvailableState tid state w = (tt, w).
Proof.
  intros Habs. unfold updateAvailableState, StdMap.contains.
  by rewrite Habs.
Qed.

Lemma disableTerminusSensors_lookup tid (tms : TerminiMapper) :
  SensorManager.disableTerminusSensors tid tms !! tid
  = (fun tm => mkTerminus (markUnavailable <$> numericSensors tm))
      <$> tms !! tid.
Proof.
  unfold SensorManager.disableTerminusSensors.
  by rewrite lookup_alter_eq.
Qed.

Lemma markUnavailable_all (sensors : list Sensor) :
  Forall (fun s => reading s = None) (markUnavailable <$> sensors).
Proof. induction sensors; simpl; by constructor. Qed.

(** The object graph after [updateMctpEndpointAvailability(mctpInfo,
    false)] for an endpoint that resolves to [tid]. *)
Lemma unavailable_endpoint_world (mctpInfo : MctpInfo)
    tid w :
  toTid (terminusManager w) mctpInfo = Some tid ->
  (updateMctpEndpointAvailability mctpInfo false w).2
  = let known := StdMap.contains (termini w) tid in
    {| termini := SensorManager.disableTerminusSensors tid (termini w);
       terminusManager :=
         tm_updateMctpEndpointAvailability (terminusManager w) mctpInfo
           false;
       sensorManager :=
         if known
         then SensorManager.updateAvailableState tid false
                (sensorManager w)
         else sensorManager w;
       eventManager :=
         if known
         then EventManager.updateAvailableState tid false (eventManager w)
         else eventManager w;
       calls :=
         calls w
         ++ [TerminusManager_toTid mctpInfo;
             SensorManager_disableTerminusSensors tid]
         ++ (if known
             then [SensorManager_updateAvailableState tid false;
                   EventManager_updateAvailableState tid false]
             else [])
         ++ [TerminusManager_updateMctpEndpointAvailability mctpInfo
               false] |}.
Proof.
  intros Htid.
  unfold updateMctpEndpointAvailability, updateAvailableState.
  run_calls. rewrite Htid. simpl.
  unfold StdMap.contains. rewrite disableTerminusSensors_lookup.
  destruct (termini w !! tid) as [tm|]; simpl;
    by rewrite <- ?(assoc_L (++)).
Qed.

(** C5.  For an endpoint that resolves to a TID the registry holds, after
    [updateMctpEndpointAvailability] with [false] the polling engine and
    the event manager both store [false] for the TID (and the polling
    engine's query answers [false]), and every sensor of the terminus of
    that TID is marked unavailable. *)
Theorem updateMctpEndpointAvailability_unavailable_converges
    (mctpInfo : MctpInfo) tid w :
  toTid (terminusManager w) mctpInfo = Some tid ->
  is_Some (termini w !! tid) ->
  SensorManager.availableState
    (sensorManager (updateMctpEndpointAvailability mctpInfo false w).2)
    !! tid = Some false
  /\ (SensorManager.getAvailableState tid
        (sensorManager (updateMctpEndpointAvailability mctpInfo false w).2)).1
     = false
  /\ EventManager.availableState
       (eventManager (updateMctpEndpointAvailability mctpInfo false w).2)
       !! tid = Some false
  /\ exists tm : Terminus,
       termini (updateMctpEndpointAvailability mctpInfo false w).2 !! tid
       = Some tm
       /\ Forall (fun s => reading s = None) (numericSensors tm).
Proof.
  intros Htid [tm Htm].
  rewrite (unavailable_endpoint_world _ _ _ Htid). simpl.
  unfold StdMap.contains. rewrite Htm.
  assert (SensorManager.availableState
            (SensorManager.updateAvailableState tid false (sensorManager w))
            !! tid = Some false) as Hsm.
  { simpl. unfold StdMap.assign. apply lookup_insert_eq. }
  repeat split.
  - exact Hsm.
  - unfold SensorManager.getAvailableState, StdMap.contains, StdMap.index.
    by rewrite Hsm.
  - simpl. unfold StdMap.assign. apply lookup_insert_eq.
  - exists (mkTerminus (markUnavailable <$> numericSensors tm)). split.
    + rewrite disableTerminusSensors_lookup. by rewrite Htm.
    + apply markUnavailable_all.
Qed.

(** C10.  Every call of [updateMctpEndpointAvailability], whether the
    endpoint resolves to a TID or not, ends with one call of the
    terminus manager's [updateMctpEndpointAvailability] with the same
    endpoint and availability: it is the last call made, none of the
    calls before it (those on the polling engine among them) is such a
    notification, and the terminus manager's state is the one that
    single notification produces. *)
Theorem updateMctpEndpointAvailability_forwards_last
    (mctpInfo : MctpInfo) (availability : Availability) w :
  exists before : list Call,
    calls (updateMctpEndpointAvailability mctpInfo availability w).2
    = calls w ++ before
      ++ [TerminusManager_updateMctpEndpointAvailability mctpInfo
            availability]
    /\ Forall (fun c => is_forward c = false) before
    /\ terminusManager
         (updateMctpEndpointAvailability mctpInfo availability w).2
       = tm_updateMctpEndpointAvailability (terminusManager w) mctpInfo
           availability.
Proof.
  exists
    (TerminusManager_toTid mctpInfo
     :: match toTid (terminusManager w) mctpInfo with
        | Some tid =>
            (if availability then SensorManager_startSensorPollTimer tid
             else SensorManager_disableTerminusSensors tid)
            :: (if StdMap.contains (termini w) tid
                then [SensorManager_updateAvailableState tid availability;
                      EventManager_updateAvailableState tid availability]
                else [])
        | None => []
        end).
  unfold updateMctpEndpointAvailability, updateAvailableState.
  run_calls.
  destruct (toTid (terminusManager w) mctpInfo) as [tid|]; simpl.
  - assert (StdMap.contains
              (SensorManager.disableTerminusSensors tid (termini w)) tid
            = StdMap.contains (termini w) tid) as Hdom.
    { unfold StdMap.contains. rewrite disableTerminusSensors_lookup.
      by destruct (termini w !! tid). }
    destruct availability; simpl; rewrite ?Hdom;
      destruct (StdMap.contains (termini w) tid); simpl;
      rewrite <- ?(assoc_L (++)); simpl;
      (split; [reflexivity|split; [repeat constructor|reflexivity]]).
  - rewrite <- ?(assoc_L (++)). simpl.
    split; [reflexivity|split; [repeat constructor|reflexivity]].
Qed.

End facts.
End ManagerFacts.

(** ** The properties on the concrete instances *)

Module ManagerExamples.
Import Manager ManagerFacts Examples.



Lemma push_handlers_return_success_witness :
  (@handlePlatformEvent Z table failing (eventManager world) 5
     (@PLDM_PLATFORM_EVENT_ID_NULL dsp0248) (@PLDM_SENSOR_EVENT dsp0248)
     (ptr_add (payload_ptr request) 4) (@size_sub lp64 10 4)).1 = 1
  /\ (@handleSensorEvent Z table dsp0248 lp64 failing
        request 10 1 5 4 world).1 = @PLDM_SUCCESS dsp0248.
Proof.
  split; [reflexivity|].
  pose proof (@push_handlers_return_success Z table dsp0248 lp64 failing
                request 10 1 5 4 world) as Hall.
  apply Forall_inv in Hall. apply (Hall 1). reflexivity.
Defined.

Lemma push_handlers_forward_witness :
  (0 <= 4 <= 10 /\ 10 < 2 ^ @size_t_bits lp64
   /\ 10 <= Z.of_nat (length (payload request)))
  /\ Forall
       (fun ch =>
          eventManager (ch.2 request 10 1 5 4 world).2
          = (@handlePlatformEvent Z table failing (eventManager world) 5
               (@PLDM_PLATFORM_EVENT_ID_NULL dsp0248) ch.1
               (ptr_add (payload_ptr request) 4) (10 - 4)).2
          /\ calls (ch.2 request 10 1 5 4 world).2
             = calls world
               ++ [EventManager_handlePlatformEvent 5
                     (@PLDM_PLATFORM_EVENT_ID_NULL dsp0248) ch.1
                     (ptr_add (payload_ptr request) 4) (10 - 4)]
          /\ bytes_at (ptr_add (payload_ptr request) 4) (10 - 4)
             = take (Z.to_nat (10 - 4))
                 (drop (Z.to_nat 4) (payload request))
          /\ Z.of_nat
               (length (bytes_at (ptr_add (payload_ptr request) 4) (10 - 4)))
             = 10 - 4)
       (@push_handlers Z table dsp0248 lp64 failing).
Proof.
  assert (10 < 2 ^ @size_t_bits lp64) as Hlen by reflexivity.
  assert (10 <= Z.of_nat (length (payload request))) as Hpayload
    by (simpl; lia).
  split; [split; [lia|split; [exact Hlen|exact Hpayload]]|].
  destruct (@push_handlers_forward Z table dsp0248 lp64 failing
              request 10 1 5 4 world) as [_ Hexact].
  apply Hexact; [lia|exact Hlen|exact Hpayload].
Defined.

Lemma updateAvailableState_unknown_tid_witness :
  termini world !! 6 = None
  /\ @updateAvailableState Z table 6 true world = (tt, world).
Proof.
  split; [reflexivity|].
  apply (@updateAvailableState_unknown_tid Z table 6 true world).
  reflexivity.
Defined.

Lemma updateMctpEndpointAvailability_unavailable_converges_witness :
  (@toTid Z table failing (terminusManager world) 9 = Some 5
   /\ is_Some (termini world !! 5))
  /\ SensorManager.availableState (sensorManager endpoint9_unavailable) !! 5
     = Some false
  /\ (SensorManager.getAvailableState 5
        (sensorManager endpoint9_unavailable)).1 = false
  /\ EventManager.availableState (eventManager endpoint9_unavailable) !! 5
     = Some false
  /\ exists tm : Terminus,
       termini endpoint9_unavailable !! 5 = Some tm
       /\ Forall (fun s => reading s = None) (numericSensors tm).
Proof.
  assert (is_Some (termini world !! 5)) as Hknown by (eexists; reflexivity).
  split; [split; [reflexivity|exact Hknown]|].
  exact (@updateMctpEndpointAvailability_unavailable_converges
           Z table failing 9 5 world eq_refl Hknown).
Defined.

End ManagerExamples.

(** ** Further properties of SensorManager *)

Module SensorManagerMore.
Import SensorManager SensorManagerFacts Updates.

Lemma getAvailableState_eq (tid : pldm_tid_t) (sm : t) :
  getAvailableState tid sm = (default false (availableState sm !! tid), sm).
Proof.
  unfold getAvailableState, StdMap.contains, StdMap.index.
  destruct (availableState sm !! tid) as [v|] eqn:E; simpl; [|done].
  by rewrite set_availableState_id.
Qed.

Lemma availableState_update_eq (tid : pldm_tid_t) (st : Availability)
    (sm : t) :
  availableState (updateAvailableState tid st sm) !! tid = Some st.
Proof. simpl. unfold StdMap.assign. apply lookup_insert_eq. Qed.

(** X1.  [getAvailableState] is read-only in every state of the engine,
    also for a TID that has an entry (where [operator[]] is reached), and
    it answers [true] exactly when the stored state of the TID is
    [true]. *)
Theorem getAvailableState_read_only (tid : pldm_tid_t) (sm : t) :
  (getAvailableState tid sm).2 = sm
  /\ ((getAvailableState tid sm).1 = true
      <-> availableState sm !! tid = Some true).
Proof.
  rewrite getAvailableState_eq. simpl. split; [done|].
  destruct (availableState sm !! tid) as [[|]|]; simpl; split; congruence.
Qed.

(** X2.  Write then read: after [updateAvailableState(tid, state)],
    [getAvailableState(tid)] returns [state], whatever was stored
    before. *)
Theorem getAvailableState_after_update (tid : pldm_tid_t)
    (st : Availability) (sm : t) :
  getAvailableState tid (updateAvailableState tid st sm)
  = (st, updateAvailableState tid st sm).
Proof.
  rewrite getAvailableState_eq. by rewrite availableState_update_eq.
Qed.

Lemma last_update_from_acc (tid : pldm_tid_t)
    (us : list (pldm_tid_t * Availability)) :
  forall acc : option Availability,
    last_update_from tid acc us
    = match last_update_from tid None us with
      | Some b => Some b
      | None => acc
      end.
Proof.
  induction us as [|u us IH]; intros acc; simpl; [done|].
  destruct (Z.eqb u.1 tid).
  - rewrite (IH (Some u.2)).
    by destruct (last_update_from tid None us).
  - apply IH.
Qed.

Lemma record_all_lookup (tid : pldm_tid_t)
    (us : list (pldm_tid_t * Availability)) :
  forall sm : t,
    availableState (record_all us sm) !! tid
    = match last_update tid us with
      | Some b => Some b
      | None => availableState sm !! tid
      end.
Proof.
  unfold record_all, last_update.
  induction us as [|u us IH]; intros sm; simpl; [done|].
  rewrite IH. destruct (Z.eqb_spec u.1 tid) as [->|Hne].
  - rewrite (last_update_from_acc tid us (Some u.2)).
    destruct (last_update_from tid None us); [done|].
    apply availableState_update_eq.
  - destruct (last_update_from tid None us); [done|].
    by apply updateAvailableState_other.
Qed.

(** X3.  Last write wins: after any sequence of [updateAvailableState]
    calls, [getAvailableState(tid)] returns the state of the last call
    made for [tid], and what it returned before the sequence when no call
    was for [tid]. *)
Theorem getAvailableState_last_update (tid : pldm_tid_t)
    (us : list (pldm_tid_t * Availability)) (sm : t) :
  (getAvailableState tid (record_all us sm)).1
  = default (getAvailableState tid sm).1 (last_update tid us).
Proof.
  rewrite !getAvailableState_eq. simpl. rewrite record_all_lookup.
  by destruct (last_update tid us).
Qed.

(** X4.  A second [updateAvailableState] for the same TID replaces the
    first, and two updates for different TIDs can be made in either
    order. *)
Theorem updateAvailableState_compose (tid tid' : pldm_tid_t)
    (st st' : Availability) (sm : t) :
  updateAvailableState tid st' (updateAvailableState tid st sm)
  = updateAvailableState tid st' sm
  /\ (tid <> tid' ->
      updateAvailableState tid st (updateAvailableState tid' st' sm)
      = updateAvailableState tid' st' (updateAvailableState tid st sm)).
Proof.
  unfold updateAvailableState, set_availableState, StdMap.assign. simpl.
  split.
  - by rewrite insert_insert_eq.
  - intros Hne. by rewrite insert_insert_ne.
Qed.

Lemma updateAvailableState_compose_witness :
  5 <> 6
  /\ updateAvailableState 5 true (updateAvailableState 6 false (init 1000))
     = updateAvailableState 6 false (updateAvailableState 5 true (init 1000)).
Proof.
  split; [lia|].
  apply (updateAvailableState_compose 5 6 true false (init 1000)). lia.
Defined.

(** X5.  [updateAvailableState] for one TID changes neither what
    [getAvailableState] returns for any other TID nor the timers, the task
    handles, the round-robin cursors or the polling interval. *)
Theorem updateAvailableState_frame (tid tid' : pldm_tid_t)
    (st : Availability) (sm : t) :
  tid' <> tid ->
  (getAvailableState tid' (updateAvailableState tid st sm)).1
  = (getAvailableState tid' sm).1
  /\ sensorPollTimers (updateAvailableState tid st sm) = sensorPollTimers sm
  /\ doSensorPollingTaskHandles (updateAvailableState tid st sm)
     = doSensorPollingTaskHandles sm
  /\ roundRobinSensorItMap (updateAvailableState tid st sm)
     = roundRobinSensorItMap sm
  /\ pollingTime (updateAvailableState tid st sm) = pollingTime sm.
Proof.
  intros Hne. rewrite !getAvailableState_eq. simpl.
  unfold StdMap.assign. by rewrite lookup_insert_ne.
Qed.

Lemma updateAvailableState_frame_witness :
  6 <> 5
  /\ (getAvailableState 6
        (updateAvailableState 5 false
           (updateAvailableState 6 true (init 1000)))).1
     = (getAvailableState 6 (updateAvailableState 6 true (init 1000))).1.
Proof.
  split; [lia|].
  apply (updateAvailableState_frame 5 6 false
           (updateAvailableState 6 true (init 1000))). lia.
Defined.

End SensorManagerMore.

(** ** Further properties of Manager *)

Module ManagerMore.
Import Manager ManagerFacts.

Section more.
Context {MctpInfo TM : Type} `{Libpldm} `{Abi} `{Collaborators MctpInfo TM}.

Implicit Types (w : @World MctpInfo TM) (tid : pldm_tid_t).

(** *** Availability *)

Lemma updateAvailableState_run tid (state : Availability) w :
  (updateAvailableState tid state w).2
  = if StdMap.contains (termini w) tid
    then {| termini := termini w;
            terminusManager := terminusManager w;
            sensorManager :=
              SensorManager.updateAvailableState tid state (sensorManager w);
            eventManager :=
              EventManager.updateAvailableState tid state (eventManager w);
            calls :=
              calls w ++ [SensorManager_updateAvailableState tid state;
                          EventManager_updateAvailableState tid state] |}
    else w.
Proof.
  unfold updateAvailableState.
  destruct (StdMap.contains (termini w) tid); [|done].
  run_calls. by rewrite <- (assoc_L (++)).
Qed.


(** X7.  [Manager::updateAvailableState] for one TID leaves the polling
    engine's answer for every other TID as it was, whether or not either
    TID is in the registry. *)
Theorem updateAvailableState_other_tid tid tid' (state : Availability) w :
  tid' <> tid ->
  (SensorManager.getAvailableState tid'
     (sensorManager (updateAvailableState tid state w).2)).1
  = (SensorManager.getAvailableState tid' (sensorManager w)).1.
Proof.
  intros Hne. rewrite updateAvailableState_run.
  destruct (StdMap.contains (termini w) tid); simpl; [|done].
  rewrite !SensorManagerMore.getAvailableState_eq. simpl.
  unfold StdMap.assign. by rewrite lookup_insert_ne.
Qed.

(** X8.  For an endpoint the terminus manager resolves to no TID,
    [updateMctpEndpointAvailability] only asks for the TID and forwards the
    notification: the registry, the polling engine and the event manager
    are as before, and these are the only two calls made. *)
Theorem updateMctpEndpointAvailability_unresolved (mctpInfo : MctpInfo)
    (availability : Availability) w :
  toTid (terminusManager w) mctpInfo = None ->
  updateMctpEndpointAvailability mctpInfo availability w
  = (tt,
     {| termini := termini w;
        terminusManager :=
          tm_updateMctpEndpointAvailability (terminusManager w) mctpInfo
            availability;
        sensorManager := sensorManager w;
        eventManager := eventManager w;
        calls :=
          calls w
          ++ [TerminusManager_toTid mctpInfo;
              TerminusManager_updateMctpEndpointAvailability mctpInfo
                availability] |}).
Proof.
  intros Hnone. unfold updateMctpEndpointAvailability. run_calls.
  rewrite Hnone. simpl. by rewrite <- (assoc_L (++)).
Qed.

Lemma contains_disableTerminusSensors tid (tms : TerminiMapper) :
  StdMap.contains (SensorManager.disableTerminusSensors tid tms) tid
  = StdMap.contains tms tid.
Proof.
  unfold StdMap.contains. rewrite disableTerminusSensors_lookup.
  by destruct (tms !! tid).
Qed.

(** The calls and the polling engine after
    [updateMctpEndpointAvailability] for an endpoint that resolves to
    [tid]. *)
Lemma resolved_endpoint_world (mctpInfo : MctpInfo)
    (availability : Availability) tid w :
  toTid (terminusManager w) mctpInfo = Some tid ->
  calls (updateMctpEndpointAvailability mctpInfo availability w).2
  = calls w
    ++ [TerminusManager_toTid mctpInfo;
        if availability then SensorManager_startSensorPollTimer tid
        else SensorManager_disableTerminusSensors tid]
    ++ (if StdMap.contains (termini w) tid
        then [SensorManager_updateAvailableState tid availability;
              EventManager_updateAvailableState tid availability]
        else [])
    ++ [TerminusManager_updateMctpEndpointAvailability mctpInfo
          availability]
  /\ sensorManager (updateMctpEndpointAvailability mctpInfo availability w).2
     = let sm :=
         if availability
         then SensorManager.startSensorPollTimer tid (sensorManager w)
         else sensorManager w in
       if StdMap.contains (termini w) tid
       then SensorManager.updateAvailableState tid availability sm
       else sm.
Proof.
  intros Htid.
  unfold updateMctpEndpointAvailability, updateAvailableState.
  run_calls. rewrite Htid. simpl.
  destruct availability; simpl; rewrite ?contains_disableTerminusSensors;
    destruct (StdMap.contains (termini w) tid); simpl;
    by rewrite <- ?(assoc_L (++)).
Qed.

(** X9.  For an endpoint that resolves to a TID of the registry, after
    [updateMctpEndpointAvailability(mctpInfo, availability)] the polling
    engine answers [availability] for that TID, for [true] as for
    [false]. *)
Theorem updateMctpEndpointAvailability_polling_engine
    (mctpInfo : MctpInfo) (availability : Availability) tid w :
  toTid (terminusManager w) mctpInfo = Some tid ->
  is_Some (termini w !! tid) ->
  (SensorManager.getAvailableState tid
     (sensorManager
        (updateMctpEndpointAvailability mctpInfo availability w).2)).1
  = availability.
Proof.
  intros Htid [tm Htm].
  destruct (resolved_endpoint_world mctpInfo availability tid w Htid)
    as [_ ->].
  unfold StdMap.contains. rewrite Htm. simpl.
  by rewrite SensorManagerMore.getAvailableState_eq,
             SensorManagerMore.availableState_update_eq.
Qed.


(** *** Event ingestion *)



(** X13.  The event data size a push-style handler computes is always a
    value of [size_t], and adding it to the offset gives back the payload
    length modulo [2^size_t_bits]. *)
Theorem size_sub_range (payloadLength eventDataOffset : Z) :
  0 <= size_t_bits ->
  0 <= size_sub payloadLength eventDataOffset < 2 ^ size_t_bits
  /\ (eventDataOffset + size_sub payloadLength eventDataOffset)
       mod 2 ^ size_t_bits
     = payloadLength mod 2 ^ size_t_bits.
Proof.
  intros Hbits. unfold size_sub.
  assert (0 < 2 ^ size_t_bits) as Hpos by (apply Z.pow_pos_nonneg; lia).
  split; [apply Z.mod_pos_bound; lia|].
  rewrite Zplus_mod_idemp_r. f_equal. lia.
Qed.

(** X14.  When [eventDataOffset] exceeds [payloadLength], what each
    push-style handler hands to the event manager reaches past the end of
    the message: the pointer and the size of its one dispatch designate a
    range of the request payload whose end, offset plus size, lies beyond
    the last byte of the payload. *)
Theorem push_handlers_size_exceeds_payload (request : pldm_msg)
    (payloadLength formatVersion tid eventDataOffset : Z) w :
  0 <= payloadLength < eventDataOffset ->
  eventDataOffset < 2 ^ size_t_bits ->
  Z.of_nat (length (payload request)) < 2 ^ size_t_bits ->
  Forall
    (fun ch =>
       exists (eventData : byte_ptr) (eventDataSize : Z),
         eventManager
           (ch.2 request payloadLength formatVersion tid eventDataOffset
              w).2
         = (handlePlatformEvent (eventManager w) tid
              PLDM_PLATFORM_EVENT_ID_NULL ch.1 eventData eventDataSize).2
         /\ calls
              (ch.2 request payloadLength formatVersion tid eventDataOffset
                 w).2
            = calls w ++ [EventManager_handlePlatformEvent tid
                            PLDM_PLATFORM_EVENT_ID_NULL ch.1 eventData
                            eventDataSize]
         /\ pointee eventData = payload request
         /\ Z.of_nat (length (payload request))
            < offset eventData + eventDataSize)
    push_handlers.
Proof.
  intros Hlen Hoff Hpayload.
  eapply Forall_impl; [apply push_handlers_run|].
  intros ch ->. simpl.
  exists (ptr_add (payload_ptr request) eventDataOffset),
         (size_sub payloadLength eventDataOffset).
  split; [done|]. split; [done|]. split; [done|].
  rewrite size_sub_wraps by lia. simpl. lia.
Qed.

(** X15.  [handleCperEvent] leaves the object graph that
    [handlePolledCperEvent] leaves when it is given the null event id,
    the payload pointer advanced by the offset and the [size_t]
    difference; the two differ in the return value only, which is
    [PLDM_SUCCESS] for the push-style handler. *)
Theorem handleCperEvent_as_polled (request : pldm_msg)
    (payloadLength formatVersion tid eventDataOffset : Z) w :
  (handleCperEvent request payloadLength formatVersion tid eventDataOffset
     w).2
  = (handlePolledCperEvent tid PLDM_PLATFORM_EVENT_ID_NULL
       (ptr_add (payload_ptr request) eventDataOffset)
       (size_sub payloadLength eventDataOffset) w).2
  /\ (handleCperEvent request payloadLength formatVersion tid
        eventDataOffset w).1 = PLDM_SUCCESS.
Proof.
  unfold handleCperEvent. rewrite dispatch_then_success.
  unfold handlePolledCperEvent. run_calls.
  by destruct (handlePlatformEvent (eventManager w) tid
                 PLDM_PLATFORM_EVENT_ID_NULL PLDM_CPER_EVENT
                 (ptr_add (payload_ptr request) eventDataOffset)
                 (size_sub payloadLength eventDataOffset)).
Qed.

End more.
End ManagerMore.

(** ** OEM poll handler registration *)

Module PollHandlersFacts.
Import PollHandlers.

Section facts.
Context {PollHandler : Type}.

Lemma register_all_app (hs : list PollHandler) :
  forall pollHandlers : list PollHandler,
    register_all hs pollHandlers = pollHandlers ++ hs.
Proof.
  unfold register_all, registerOEMPollMethod.
  induction hs as [|h hs IH]; intros ph; simpl.
  - by rewrite app_nil_r.
  - rewrite IH. by rewrite <- (assoc_L (++)).
Qed.

(** X16.  Registering OEM poll methods keeps registration order: each
    handler already registered stays at its index, the new handlers
    follow in the order of their registration, and nothing is dropped or
    merged, also when a handler is registered more than once. *)
Theorem registerOEMPollMethod_order (hs pollHandlers : list PollHandler) :
  register_all hs pollHandlers = pollHandlers ++ hs
  /\ length (register_all hs pollHandlers)
     = (length pollHandlers + length hs)%nat
  /\ (forall (i : nat) (h : PollHandler),
        pollHandlers !! i = Some h ->
        register_all hs pollHandlers !! i = Some h)
  /\ (forall i : nat,
        register_all hs pollHandlers !! (length pollHandlers + i)%nat
        = hs !! i).
Proof.
  rewrite register_all_app. repeat split.
  - apply length_app.
  - intros i h Hi. by apply lookup_app_l_Some.
  - intros i. by rewrite lookup_app_r, Nat.add_comm, Nat.add_sub by lia.
Qed.

End facts.
End PollHandlersFacts.

(** ** The further properties on the concrete instances *)

Module MoreExamples.
Import Manager ManagerMore Examples.

Lemma updateAvailableState_other_tid_witness :
  6 <> 5
  /\ (SensorManager.getAvailableState 6
        (sensorManager (@updateAvailableState Z table 5 true world).2)).1
     = (SensorManager.getAvailableState 6 (sensorManager world)).1.
Proof.
  split; [lia|].
  apply (@updateAvailableState_other_tid Z table 5 6 true world). lia.
Defined.

Lemma updateMctpEndpointAvailability_unresolved_witness :
  @toTid Z table failing (terminusManager world) 7 = None
  /\ @updateMctpEndpointAvailability Z table failing 7 true world
     = (tt,
        {| termini := termini world;
           terminusManager :=
             @tm_updateMctpEndpointAvailability Z table failing
               (terminusManager world) 7 true;
           sensorManager := sensorManager world;
           eventManager := eventManager world;
           calls :=
             calls world
             ++ [TerminusManager_toTid 7;
                 TerminusManager_updateMctpEndpointAvailability 7 true] |}).
Proof.
  split; [reflexivity|].
  apply (@updateMctpEndpointAvailability_unresolved Z table failing 7 true
           world).
  reflexivity.
Defined.

Lemma updateMctpEndpointAvailability_polling_engine_witness :
  (@toTid Z table failing (terminusManager world) 9 = Some 5
   /\ is_Some (termini world !! 5))
  /\ (SensorManager.getAvailableState 5
        (sensorManager
           (@updateMctpEndpointAvailability Z table failing 9 true
              world).2)).1
     = true.
Proof.
  assert (is_Some (termini world !! 5)) as Hknown by (eexists; reflexivity).
  split; [split; [reflexivity|exact Hknown]|].
  exact (@updateMctpEndpointAvailability_polling_engine Z table failing
           9 true 5 world eq_refl Hknown).
Defined.


Lemma size_sub_range_witness :
  0 <= @size_t_bits lp64
  /\ 0 <= @size_sub lp64 10 12 < 2 ^ @size_t_bits lp64
  /\ (12 + @size_sub lp64 10 12) mod 2 ^ @size_t_bits lp64
     = 10 mod 2 ^ @size_t_bits lp64.
Proof.
  assert (0 <= @size_t_bits lp64) as Hbits by (simpl; lia).
  split; [exact Hbits|].
  exact (@size_sub_range lp64 10 12 Hbits).
Defined.

Lemma push_handlers_size_exceeds_payload_witness :
  (0 <= 10 < 12 /\ 12 < 2 ^ @size_t_bits lp64
   /\ Z.of_nat (length (payload request)) < 2 ^ @size_t_bits lp64)
  /\ Forall
       (fun ch =>
          exists (eventData : byte_ptr) (eventDataSize : Z),
            eventManager (ch.2 request 10 1 5 12 world).2
            = (@handlePlatformEvent Z table failing (eventManager world) 5
                 (@PLDM_PLATFORM_EVENT_ID_NULL dsp0248) ch.1 eventData
                 eventDataSize).2
            /\ calls (ch.2 request 10 1 5 12 world).2
               = calls world
                 ++ [EventManager_handlePlatformEvent 5
                       (@PLDM_PLATFORM_EVENT_ID_NULL dsp0248) ch.1 eventData
                       eventDataSize]
            /\ pointee eventData = payload request
            /\ Z.of_nat (length (payload request))
               < offset eventData + eventDataSize)
       (@push_handlers Z table dsp0248 lp64 failing).
Proof.
  assert (12 < 2 ^ @size_t_bits lp64) as Hoff by reflexivity.
  assert (Z.of_nat (length (payload request)) < 2 ^ @size_t_bits lp64)
    as Hpayload by reflexivity.
  split; [split; [lia|split; [exact Hoff|exact Hpayload]]|].
  apply (@push_handlers_size_exceeds_payload Z table dsp0248 lp64 failing
           request 10 1 5 12 world); [lia|exact Hoff|exact Hpayload].
Defined.

Lemma registerOEMPollMethod_order_witness :
  [1; 2] !! 1%nat = Some 2
  /\ PollHandlers.register_all [3; 4] [1; 2] !! 1%nat = Some 2.
Proof.
  split; [reflexivity|].
  destruct (@PollHandlersFacts.registerOEMPollMethod_order Z [3; 4] [1; 2])
    as (_ & _ & Hkeep & _).
  apply Hkeep. reflexivity.
Defined.

End MoreExamples.
